(** * ModuleBase: the chassis-module base class of sonic_platform_base

    A shallow embedding of [sonic_platform_base/module_base.py].  Python
    objects live in a store indexed by references; a method is a function of
    the store and of the standard error stream that returns a value or raises
    an exception. *)

From Stdlib Require Import ZArith Lia Ascii String.
From stdpp Require Import base gmap strings list fin_maps pretty.

Local Open Scope Z_scope.

(** ** Python values, objects and the interpreter state *)

Abbreviation loc := positive.

(** The values that occur in this module: [None], a string constant, or a
    reference to an object of the store. *)
Inductive value :=
| VNone
| VStr (s : string)
| VRef (l : loc).

(** Objects of the store: a mutable list, an instance with its attribute
    dictionary ([__dict__]), or a sub-device (a ComponentBase, FanBase,
    PsuBase, ThermalBase or SfpBase object, opaque here). *)
Inductive object :=
| OList (items : list value)
| OInstance (dict : gmap string value)
| ODevice (name : string).

(** [stderr] records the strings given to [sys.stderr.write], oldest first. *)
Record world := World {
  heap : gmap loc object;
  stderr : list string
}.

Inductive exn :=
| NotImplementedError
| IndexError
| TypeError
| AttributeError.

#[global] Instance exn_eq_dec : EqDecision exn.
Proof. solve_decision. Defined.

Inductive outcome (A : Type) :=
| Return (a : A)
| Raise (e : exn).
Arguments Return {A} a.
Arguments Raise {A} e.

(** A Python computation: it reads and updates the world and either returns
    or raises. *)
Definition py (A : Type) : Type := world → outcome A * world.

Definition ret {A} (a : A) : py A := λ w, (Return a, w).

Definition bind {A B} (m : py A) (f : A → py B) : py B := λ w,
  match m w with
  | (Return a, w') => f a w'
  | (Raise e, w') => (Raise e, w')
  end.

#[global] Instance py_ret : MRet py := @ret.
#[global] Instance py_bind : MBind py := λ A B f m, bind m f.

Definition raise {A} (e : exn) : py A := λ w, (Raise e, w).

Definition lift {A} (o : outcome A) : py A := λ w, (o, w).

(** [try: body  except e: handler].  The handler runs in the world the body
    left behind; any other exception propagates. *)
Definition try_except {A} (body : py A) (e : exn) (handler : py A) : py A := λ w,
  match body w with
  | (Return a, w') => (Return a, w')
  | (Raise e', w') => if decide (e' = e) then handler w' else (Raise e', w')
  end.

(** ** Built-in operations used by the module *)

(** A new object gets a reference that the store does not use yet. *)
Definition alloc (o : object) : py loc := λ w,
  let l := fresh (dom (heap w)) in
  (Return l, {| heap := <[l := o]> (heap w); stderr := stderr w |}).

(** The class body of ModuleBase: its constants and the class-level defaults
    of the five collection attributes. *)
Definition DEVICE_TYPE : string := "module".

Definition MODULE_TYPE_SUPERVISOR : string := "SUPERVISOR".
Definition MODULE_TYPE_LINE : string := "LINE-CARD".
Definition MODULE_TYPE_FABRIC : string := "FABRIC-CARD".

Definition MODULE_STATUS_EMPTY : string := "Empty".
Definition MODULE_STATUS_OFFLINE : string := "Offline".
Definition MODULE_STATUS_PRESENT : string := "Present".
Definition MODULE_STATUS_FAULT : string := "Fault".
Definition MODULE_STATUS_ONLINE : string := "Online".

Definition ModuleBase_class : gmap string value :=
  list_to_map [
    ("DEVICE_TYPE", VStr DEVICE_TYPE);
    ("MODULE_TYPE_SUPERVISOR", VStr MODULE_TYPE_SUPERVISOR);
    ("MODULE_TYPE_LINE", VStr MODULE_TYPE_LINE);
    ("MODULE_TYPE_FABRIC", VStr MODULE_TYPE_FABRIC);
    ("MODULE_STATUS_EMPTY", VStr MODULE_STATUS_EMPTY);
    ("MODULE_STATUS_OFFLINE", VStr MODULE_STATUS_OFFLINE);
    ("MODULE_STATUS_PRESENT", VStr MODULE_STATUS_PRESENT);
    ("MODULE_STATUS_FAULT", VStr MODULE_STATUS_FAULT);
    ("MODULE_STATUS_ONLINE", VStr MODULE_STATUS_ONLINE);
    ("_component_list", VNone);
    ("_fan_list", VNone);
    ("_psu_list", VNone);
    ("_thermal_list", VNone);
    ("_sfp_list", VNone)
  ].

(** [obj.name]: the instance dictionary first, then the class. *)
Definition getattr (obj : loc) (name : string) : py value := λ w,
  match heap w !! obj with
  | Some (OInstance dict) =>
      match dict !! name with
      | Some v => (Return v, w)
      | None =>
          match ModuleBase_class !! name with
          | Some v => (Return v, w)
          | None => (Raise AttributeError, w)
          end
      end
  | _ => (Raise AttributeError, w)
  end.

(** [obj.name = v]: always writes the instance dictionary. *)
Definition setattr (obj : loc) (name : string) (v : value) : py unit := λ w,
  match heap w !! obj with
  | Some (OInstance dict) =>
      (Return (),
       {| heap := <[obj := OInstance (<[name := v]> dict)]> (heap w);
          stderr := stderr w |})
  | _ => (Raise AttributeError, w)
  end.

(** [len(v)] *)
Definition len (v : value) : py Z := λ w,
  match v with
  | VStr s => (Return (Z.of_nat (String.length s)), w)
  | VRef l =>
      match heap w !! l with
      | Some (OList items) => (Return (Z.of_nat (length items)), w)
      | _ => (Raise TypeError, w)
      end
  | VNone => (Raise TypeError, w)
  end.

(** Indexing a sequence of [n] elements with a Python integer: a negative
    index counts from the end, and what is still outside [0, n) is an
    IndexError. *)
Definition sequence_index (n : Z) (index : Z) : outcome nat :=
  let i := if index <? 0 then index + n else index in
  if (i <? 0) || (n <=? i) then Raise IndexError else Return (Z.to_nat i).

Definition list_getitem (items : list value) (index : Z) : outcome value :=
  match sequence_index (Z.of_nat (length items)) index with
  | Return i =>
      match items !! i with
      | Some v => Return v
      | None => Raise IndexError
      end
  | Raise e => Raise e
  end.

Definition str_getitem (s : string) (index : Z) : outcome value :=
  match sequence_index (Z.of_nat (String.length s)) index with
  | Return i =>
      match String.get i s with
      | Some c => Return (VStr (String c EmptyString))
      | None => Raise IndexError
      end
  | Raise e => Raise e
  end.

(** [v[index]] for an integer index. *)
Definition subscript (v : value) (index : Z) : py value := λ w,
  match v with
  | VStr s => (str_getitem s index, w)
  | VRef l =>
      match heap w !! l with
      | Some (OList items) => (list_getitem items index, w)
      | _ => (Raise TypeError, w)
      end
  | VNone => (Raise TypeError, w)
  end.

(** [v[:] = items]: the list object keeps its identity and gets new content.
    Every in-place mutation of a list is an instance of it. *)
Definition list_assign (v : value) (items : list value) : py unit := λ w,
  match v with
  | VRef l =>
      match heap w !! l with
      | Some (OList _) =>
          (Return (),
           {| heap := <[l := OList items]> (heap w); stderr := stderr w |})
      | _ => (Raise TypeError, w)
      end
  | _ => (Raise TypeError, w)
  end.

(** [v.append(x)] *)
Definition list_append (v : value) (x : value) : py unit := λ w,
  match v with
  | VRef l =>
      match heap w !! l with
      | Some (OList items) => list_assign v (items ++ [x]) w
      | _ => (Raise AttributeError, w)
      end
  | _ => (Raise AttributeError, w)
  end.

(** [sys.stderr.write(s)] returns the number of characters written. *)
Definition sys_stderr_write (s : string) : py Z := λ w,
  (Return (Z.of_nat (String.length s)),
   {| heap := heap w; stderr := stderr w ++ [s] |}).

(** The line feed, written [\n] in the source. *)
Definition LF : string := String "010"%char EmptyString.

(** [str(n)] of an integer, which is also what a [{}] field prints. *)
Definition str (n : Z) : string := pretty n.

Definition outcome_map {A B} (f : A → B) (o : outcome A) : outcome B :=
  match o with
  | Return a => Return (f a)
  | Raise e => Raise e
  end.

(** [template.format(a, b, ...)] for templates whose only fields are the
    automatically numbered [{}]: each field takes the next argument, too few
    arguments are an IndexError, arguments left over are ignored. *)
Fixpoint format (template : string) (args : list string) : outcome string :=
  match template with
  | EmptyString => Return EmptyString
  | String "{"%char (String "}"%char rest) =>
      match args with
      | [] => Raise IndexError
      | a :: args' => outcome_map (String.append a) (format rest args')
      end
  | String c rest => outcome_map (String c) (format rest args)
  end.

(** ** The class ModuleBase *)

Module ModuleBase.

(** [__init__]: five new empty lists, one per collection attribute. *)
Definition __init__ (self : loc) : py unit :=
  l ← alloc (OList []); _ ← setattr self "_component_list" (VRef l);
  l ← alloc (OList []); _ ← setattr self "_fan_list" (VRef l);
  l ← alloc (OList []); _ ← setattr self "_psu_list" (VRef l);
  l ← alloc (OList []); _ ← setattr self "_thermal_list" (VRef l);
  l ← alloc (OList []); setattr self "_sfp_list" (VRef l).

(** [ModuleBase()]: a new instance with an empty dictionary, initialised. *)
Definition new : py loc :=
  self ← alloc (OInstance ∅);
  _ ← __init__ self;
  mret self.

(** *** Identity and lifecycle methods *)

Definition get_base_mac (self : loc) : py value := raise NotImplementedError.

Definition get_system_eeprom_info (self : loc) : py value :=
  raise NotImplementedError.

Definition get_name (self : loc) : py value := raise NotImplementedError.

Definition get_description (self : loc) : py value := raise NotImplementedError.

Definition get_slot (self : loc) : py value := raise NotImplementedError.

Definition get_type (self : loc) : py value := raise NotImplementedError.

Definition get_status (self : loc) : py value := raise NotImplementedError.

Definition reboot (self : loc) : py value := raise NotImplementedError.

Definition set_admin_state (self : loc) (up : bool) : py value :=
  raise NotImplementedError.

(** The source gives [timeout] the default 0. *)
Definition get_change_event (self : loc) (timeout : Z) : py value :=
  raise NotImplementedError.

(** *** Component methods *)

Definition get_num_components (self : loc) : py Z :=
  lst ← getattr self "_component_list"; len lst.

Definition get_all_components (self : loc) : py value :=
  getattr self "_component_list".

Definition get_component (self : loc) (index : Z) : py value :=
  let component := VNone in
  try_except
    (lst ← getattr self "_component_list"; subscript lst index)
    IndexError
    (lst ← getattr self "_component_list";
     n ← len lst;
     msg ← lift (format ("Component index {} out of range (0-{})" +:+ LF)
                        [str index; str (n - 1)]);
     _ ← sys_stderr_write msg;
     mret component).

(** *** Fan module methods *)

Definition get_num_fans (self : loc) : py Z :=
  lst ← getattr self "_fan_list"; len lst.

Definition get_all_fans (self : loc) : py value :=
  getattr self "_fan_list".

Definition get_fan (self : loc) (index : Z) : py value :=
  let fan := VNone in
  try_except
    (lst ← getattr self "_fan_list"; subscript lst index)
    IndexError
    (lst ← getattr self "_fan_list";
     n ← len lst;
     msg ← lift (format ("Fan index {} out of range (0-{})" +:+ LF)
                        [str index; str (n - 1)]);
     _ ← sys_stderr_write msg;
     mret fan).

(** *** PSU module methods *)

Definition get_num_psus (self : loc) : py Z :=
  lst ← getattr self "_psu_list"; len lst.

Definition get_all_psus (self : loc) : py value :=
  getattr self "_psu_list".

Definition get_psu (self : loc) (index : Z) : py value :=
  let psu := VNone in
  try_except
    (lst ← getattr self "_psu_list"; subscript lst index)
    IndexError
    (lst ← getattr self "_psu_list";
     n ← len lst;
     msg ← lift (format ("PSU index {} out of range (0-{})" +:+ LF)
                        [str index; str (n - 1)]);
     _ ← sys_stderr_write msg;
     mret psu).

(** *** THERMAL methods *)

Definition get_num_thermals (self : loc) : py Z :=
  lst ← getattr self "_thermal_list"; len lst.

Definition get_all_thermals (self : loc) : py value :=
  getattr self "_thermal_list".

Definition get_thermal (self : loc) (index : Z) : py value :=
  let thermal := VNone in
  try_except
    (lst ← getattr self "_thermal_list"; subscript lst index)
    IndexError
    (lst ← getattr self "_thermal_list";
     n ← len lst;
     msg ← lift (format ("THERMAL index {} out of range (0-{})" +:+ LF)
                        [str index; str (n - 1)]);
     _ ← sys_stderr_write msg;
     mret thermal).

(** *** SFP methods *)

Definition get_num_sfps (self : loc) : py Z :=
  lst ← getattr self "_sfp_list"; len lst.

Definition get_all_sfps (self : loc) : py value :=
  getattr self "_sfp_list".

Definition get_sfp (self : loc) (index : Z) : py value :=
  let sfp := VNone in
  try_except
    (lst ← getattr self "_sfp_list"; subscript lst index)
    IndexError
    (lst ← getattr self "_sfp_list";
     n ← len lst;
     msg ← lift (format ("SFP index {} out of range (0-{})" +:+ LF)
                        [str index; str (n - 1)]);
     _ ← sys_stderr_write msg;
     mret sfp).

End ModuleBase.

(** ** The five sub-device kinds *)

Inductive kind := Component | Fan | Psu | Thermal | Sfp.

(** The attribute that holds the collection of a kind. *)
Definition attr_of (k : kind) : string :=
  match k with
  | Component => "_component_list"
  | Fan => "_fan_list"
  | Psu => "_psu_list"
  | Thermal => "_thermal_list"
  | Sfp => "_sfp_list"
  end.

(** The tag that opens the diagnostic of a kind. *)
Definition tag_of (k : kind) : string :=
  match k with
  | Component => "Component"
  | Fan => "Fan"
  | Psu => "PSU"
  | Thermal => "THERMAL"
  | Sfp => "SFP"
  end.

(** [get_num_<kind>s], [get_all_<kind>s] and [get_<kind>]. *)
Definition get_num (k : kind) : loc → py Z :=
  match k with
  | Component => ModuleBase.get_num_components
  | Fan => ModuleBase.get_num_fans
  | Psu => ModuleBase.get_num_psus
  | Thermal => ModuleBase.get_num_thermals
  | Sfp => ModuleBase.get_num_sfps
  end.

Definition get_all (k : kind) : loc → py value :=
  match k with
  | Component => ModuleBase.get_all_components
  | Fan => ModuleBase.get_all_fans
  | Psu => ModuleBase.get_all_psus
  | Thermal => ModuleBase.get_all_thermals
  | Sfp => ModuleBase.get_all_sfps
  end.

Definition get_item (k : kind) : loc → Z → py value :=
  match k with
  | Component => ModuleBase.get_component
  | Fan => ModuleBase.get_fan
  | Psu => ModuleBase.get_psu
  | Thermal => ModuleBase.get_thermal
  | Sfp => ModuleBase.get_sfp
  end.

(** The diagnostic as the interface documents it, without its line feed:
    [<Kind> index {index} out of range (0-{size-1})]. *)
Definition diagnostic (k : kind) (index size : Z) : string :=
  tag_of k +:+ " index " +:+ str index +:+ " out of range (0-"
    +:+ str (size - 1) +:+ ")".

(** The world [w] after one more string was written to standard error. *)
Definition reported (w : world) (s : string) : world :=
  {| heap := heap w; stderr := stderr w ++ [s] |}.

(** ** A line card, as a platform would populate it *)

Definition empty_world : world := {| heap := ∅; stderr := [] |}.

(** What a vendor's constructor does for each device it finds. *)
Definition register (self : loc) (attr name : string) : py unit :=
  lst ← getattr self attr;
  d ← alloc (ODevice name);
  list_append lst (VRef d).

(** A card with one component, three fans and two transceivers. *)
Definition line_card : py loc :=
  self ← ModuleBase.new;
  _ ← register self "_component_list" "CPLD";
  _ ← register self "_fan_list" "FAN0";
  _ ← register self "_fan_list" "FAN1";
  _ ← register self "_fan_list" "FAN2";
  _ ← register self "_sfp_list" "SFP0";
  _ ← register self "_sfp_list" "SFP1";
  mret self.

Definition card_world : world := (line_card empty_world).2.

(** The body that the five [get_<kind>] methods share, up to the attribute
    they read and the tag they print. *)
Definition accessor (attr tag : string) (self : loc) (index : Z) : py value :=
  try_except
    (lst ← getattr self attr; subscript lst index)
    IndexError
    (lst ← getattr self attr;
     n ← len lst;
     msg ← lift (format (tag +:+ " index {} out of range (0-{})" +:+ LF)
                        [str index; str (n - 1)]);
     _ ← sys_stderr_write msg;
     mret VNone).

(** The attribute [name] of [self] refers to a list object without items. *)
Definition empty_collection (w : world) (self : loc) (name : string) : Prop :=
  ∃ dict l,
    heap w !! self = Some (OInstance dict)
    ∧ dict !! name = Some (VRef l)
    ∧ heap w !! l = Some (OList []).

(** * Properties *)

(** ** Stepping through a computation *)

Section Stepping.
Context {A B : Type}.
Implicit Types (m : py A) (f : A → py B) (w : world).

Lemma bind_return m f w a w' :
  m w = (Return a, w') → (m ≫= f) w = f a w'.
Proof. intros Hm. unfold mbind, py_bind, bind. by rewrite Hm. Qed.

Lemma bind_raise m f w e w' :
  m w = (Raise e, w') → (m ≫= f) w = (Raise e, w').
Proof. intros Hm. unfold mbind, py_bind, bind. by rewrite Hm. Qed.

Lemma try_except_return m (h : py A) e w a w' :
  m w = (Return a, w') → try_except m e h w = (Return a, w').
Proof. intros Hm. unfold try_except. by rewrite Hm. Qed.

Lemma try_except_caught m (h : py A) e w w' :
  m w = (Raise e, w') → try_except m e h w = h w'.
Proof.
  intros Hm. unfold try_except. rewrite Hm.
  by rewrite decide_True.
Qed.

Lemma try_except_passed m (h : py A) e e' w w' :
  m w = (Raise e', w') → e' ≠ e → try_except m e h w = (Raise e', w').
Proof.
  intros Hm Hne. unfold try_except. rewrite Hm.
  by rewrite decide_False.
Qed.
End Stepping.

(** ** The built-in operations *)

(** Reading never changes the world. *)
Lemma getattr_pure obj name w r w' : getattr obj name w = (r, w') → w' = w.
Proof.
  unfold getattr. intros H.
  repeat case_match; by simplify_eq.
Qed.

Lemma len_pure v w r w' : len v w = (r, w') → w' = w.
Proof.
  unfold len. intros H.
  repeat case_match; by simplify_eq.
Qed.

Lemma subscript_pure v index w r w' : subscript v index w = (r, w') → w' = w.
Proof.
  unfold subscript. intros H.
  repeat case_match; by simplify_eq.
Qed.

Lemma len_nonneg v w n w' : len v w = (Return n, w') → 0 ≤ n.
Proof.
  unfold len. intros H.
  repeat case_match; simplify_eq; lia.
Qed.

Lemma len_list l items w :
  heap w !! l = Some (OList items) →
  len (VRef l) w = (Return (Z.of_nat (length items)), w).
Proof. intros H. unfold len. by rewrite H. Qed.

Lemma subscript_list l items index w :
  heap w !! l = Some (OList items) →
  subscript (VRef l) index w = (list_getitem items index, w).
Proof. intros H. unfold subscript. by rewrite H. Qed.

(** *** Python's index arithmetic *)

(** Case analysis on every integer comparison the goal branches on. *)
Ltac compare_cases :=
  repeat match goal with
         | |- context [?a <? ?b] => destruct (Z.ltb_spec a b)
         | |- context [?a <=? ?b] => destruct (Z.leb_spec a b)
         end;
  simpl.

Lemma sequence_index_outside n index :
  0 ≤ n → index < - n ∨ n ≤ index →
  sequence_index n index = Raise IndexError.
Proof.
  intros Hn Hout. unfold sequence_index.
  compare_cases; first [reflexivity | lia].
Qed.

Lemma sequence_index_front n index :
  0 ≤ index < n → sequence_index n index = Return (Z.to_nat index).
Proof.
  intros Hin. unfold sequence_index.
  compare_cases; first [reflexivity | lia].
Qed.

Lemma sequence_index_back n j :
  1 ≤ j ≤ n → sequence_index n (- j) = Return (Z.to_nat (n - j)).
Proof.
  intros Hin. unfold sequence_index.
  compare_cases; try lia.
  do 2 f_equal. lia.
Qed.

Lemma list_getitem_outside items index :
  index < - Z.of_nat (length items) ∨ Z.of_nat (length items) ≤ index →
  list_getitem items index = Raise IndexError.
Proof.
  intros Hout. unfold list_getitem.
  rewrite sequence_index_outside; [done | lia | done].
Qed.

Lemma list_getitem_front items index :
  0 ≤ index < Z.of_nat (length items) →
  ∃ v, items !! Z.to_nat index = Some v ∧ list_getitem items index = Return v.
Proof.
  intros Hin. unfold list_getitem. rewrite sequence_index_front by done.
  destruct (lookup_lt_is_Some_2 items (Z.to_nat index)) as [v Hv]; [lia |].
  exists v. by rewrite Hv.
Qed.

Lemma list_getitem_back items j :
  1 ≤ j ≤ Z.of_nat (length items) →
  ∃ v, items !! Z.to_nat (Z.of_nat (length items) - j) = Some v
       ∧ list_getitem items (- j) = Return v.
Proof.
  intros Hin. unfold list_getitem. rewrite sequence_index_back by done.
  destruct (lookup_lt_is_Some_2 items (Z.to_nat (Z.of_nat (length items) - j)))
    as [v Hv]; [lia |].
  exists v. by rewrite Hv.
Qed.

Lemma subscript_outside v n index w :
  len v w = (Return n, w) → index < - n ∨ n ≤ index →
  subscript v index w = (Raise IndexError, w).
Proof.
  unfold len, subscript. intros Hlen Hout.
  destruct v as [| s | l].
  - done.
  - simplify_eq. unfold str_getitem.
    rewrite sequence_index_outside; [done | lia | done].
  - destruct (heap w !! l) as [[items | |] |]; simplify_eq.
    by rewrite list_getitem_outside.
Qed.

Lemma alloc_fresh o w :
  let l := fresh (dom (heap w)) in
  heap w !! l = None
  ∧ alloc o w = (Return l, {| heap := <[l := o]> (heap w); stderr := stderr w |}).
Proof.
  split; [| done].
  apply not_elem_of_dom, is_fresh.
Qed.

(** *** The diagnostic line *)

Lemma append_assoc (s1 s2 s3 : string) :
  (s1 +:+ s2) +:+ s3 = s1 +:+ s2 +:+ s3.
Proof.
  induction s1 as [| c s1 IH]; [reflexivity |].
  change (String c ((s1 +:+ s2) +:+ s3) = String c (s1 +:+ s2 +:+ s3)).
  by rewrite IH.
Qed.

(** What the handler formats is the documented diagnostic and a line feed. *)
Lemma format_diagnostic k index size :
  format (tag_of k +:+ " index {} out of range (0-{})" +:+ LF)
         [str index; str (size - 1)]
  = Return (diagnostic k index size +:+ LF).
Proof.
  unfold diagnostic.
  generalize (str index) (str (size - 1)). intros a b.
  rewrite !append_assoc.
  by destruct k.
Qed.

(** ** The collection accessors *)

(** The fifteen methods are three bodies, read at five attributes. *)
Lemma get_num_eq k self :
  get_num k self = (getattr self (attr_of k) ≫= len).
Proof. by destruct k. Qed.

Lemma get_all_eq k self : get_all k self = getattr self (attr_of k).
Proof. by destruct k. Qed.

Lemma get_item_eq k self index :
  get_item k self index = accessor (attr_of k) (tag_of k) self index.
Proof. by destruct k. Qed.

(** A count comes from an attribute whose value has that length. *)
Lemma get_num_inv k self w n w' :
  get_num k self w = (Return n, w') →
  ∃ v, getattr self (attr_of k) w = (Return v, w)
       ∧ len v w = (Return n, w) ∧ w' = w.
Proof.
  rewrite get_num_eq. unfold mbind, py_bind, bind. intros H.
  destruct (getattr self (attr_of k) w) as [[v | e] w1] eqn:Hattr;
    [| by simplify_eq].
  apply getattr_pure in Hattr as Hw. subst w1.
  apply len_pure in H as Hw. subst w'.
  by exists v.
Qed.

Section Accessor.
Variables (attr tag : string) (self : loc) (w : world).

(** The subscript succeeds: its value is returned and nothing is written. *)
Lemma accessor_found lst index v :
  getattr self attr w = (Return lst, w) →
  subscript lst index w = (Return v, w) →
  accessor attr tag self index w = (Return v, w).
Proof.
  intros Hattr Hsub. unfold accessor.
  apply try_except_return. by rewrite (bind_return _ _ _ _ _ Hattr).
Qed.

(** The subscript raises IndexError: one line is written, None returned. *)
Lemma accessor_missed lst index n msg :
  getattr self attr w = (Return lst, w) →
  subscript lst index w = (Raise IndexError, w) →
  len lst w = (Return n, w) →
  format (tag +:+ " index {} out of range (0-{})" +:+ LF)
         [str index; str (n - 1)] = Return msg →
  accessor attr tag self index w = (Return VNone, reported w msg).
Proof.
  intros Hattr Hsub Hlen Hmsg. unfold accessor.
  rewrite (try_except_caught _ _ _ w w);
    [| by rewrite (bind_return _ _ _ _ _ Hattr)].
  rewrite (bind_return _ _ _ _ _ Hattr), (bind_return _ _ _ _ _ Hlen).
  unfold lift at 1. by rewrite Hmsg.
Qed.

(** In every case the store is left as it was. *)
Lemma accessor_heap index :
  heap (accessor attr tag self index w).2 = heap w.
Proof.
  unfold accessor, try_except, mbind, py_bind, bind.
  destruct (getattr self attr w) as [[lst | e] w1] eqn:Hattr;
    pose proof (getattr_pure _ _ _ _ _ Hattr) as ->.
  - destruct (subscript lst index w) as [[v | e] w1] eqn:Hsub;
      apply subscript_pure in Hsub as ->; [done |].
    case_decide; [| done].
    rewrite Hattr.
    destruct (len lst w) as [[n | e'] w1] eqn:Hlen;
      apply len_pure in Hlen as ->; [| done].
    unfold lift.
    by destruct (format _ _).
  - case_decide; [| done]. by rewrite Hattr.
Qed.
End Accessor.

Lemma get_item_outside k self w n index :
  get_num k self w = (Return n, w) →
  index < - n ∨ n ≤ index →
  get_item k self index w
  = (Return VNone, reported w (diagnostic k index n +:+ LF)).
Proof.
  intros (lst & Hattr & Hlen & _)%get_num_inv Hout.
  rewrite get_item_eq.
  eapply accessor_missed; eauto using subscript_outside, format_diagnostic.
Qed.

Lemma get_item_found k self w l items index v :
  get_all k self w = (Return (VRef l), w) →
  heap w !! l = Some (OList items) →
  list_getitem items index = Return v →
  get_item k self index w = (Return v, w).
Proof.
  rewrite get_all_eq, get_item_eq. intros Hattr Hl Hv.
  eapply accessor_found; [done |].
  by rewrite (subscript_list _ _ _ _ Hl), Hv.
Qed.

Lemma get_num_length k self w l items :
  get_all k self w = (Return (VRef l), w) →
  heap w !! l = Some (OList items) →
  get_num k self w = (Return (Z.of_nat (length items)), w).
Proof.
  rewrite get_all_eq, get_num_eq. intros Hattr Hl.
  rewrite (bind_return _ _ _ _ _ Hattr). by apply len_list.
Qed.

(** ** Construction *)

(** One line of [__init__]: [self.name = []]. *)
Lemma init_attribute {B} self name (rest : py B) w dict :
  heap w !! self = Some (OInstance dict) →
  ∃ w' dict',
    (l ← alloc (OList []); _ ← setattr self name (VRef l); rest) w = rest w'
    ∧ (l ← alloc (OList []); setattr self name (VRef l)) w = (Return (), w')
    ∧ heap w' !! self = Some (OInstance dict')
    ∧ stderr w' = stderr w
    ∧ empty_collection w' self name
    ∧ ∀ name', name' ≠ name →
        empty_collection w self name' → empty_collection w' self name'.
Proof.
  intros Hself.
  destruct (alloc_fresh (OList []) w) as [Hfresh Halloc].
  set (l := fresh (dom (heap w))) in *.
  assert (l ≠ self) as Hne by (intros ->; congruence).
  exists {| heap := <[self := OInstance (<[name := VRef l]> dict)]>
                      (<[l := OList []]> (heap w));
            stderr := stderr w |}, (<[name := VRef l]> dict).
  unfold mbind, py_bind, bind. rewrite Halloc. unfold setattr. simpl.
  rewrite lookup_insert_ne, Hself by done.
  split_and!; [done | done | | done | |].
  - by rewrite lookup_insert_eq.
  - exists (<[name := VRef l]> dict), l. simpl.
    rewrite !lookup_insert_eq.
    by rewrite lookup_insert_ne, lookup_insert_eq.
  - intros name' Hname (dict0 & l0 & Hd & Hl0 & Hitems).
    assert (dict0 = dict) as -> by congruence.
    exists (<[name := VRef l]> dict), l0. simpl.
    rewrite lookup_insert_eq, lookup_insert_ne by done.
    assert (l0 ≠ self) by (intros ->; congruence).
    assert (l0 ≠ l) by (intros ->; congruence).
    by rewrite !lookup_insert_ne.
Qed.

Lemma init_collections self w dict :
  heap w !! self = Some (OInstance dict) →
  ∃ w', ModuleBase.__init__ self w = (Return (), w')
        ∧ stderr w' = stderr w
        ∧ ∀ k, empty_collection w' self (attr_of k).
Proof.
  intros H0. unfold ModuleBase.__init__.
  destruct (init_attribute self "_component_list"
              (l ← alloc (OList []); _ ← setattr self "_fan_list" (VRef l);
               l ← alloc (OList []); _ ← setattr self "_psu_list" (VRef l);
               l ← alloc (OList []); _ ← setattr self "_thermal_list" (VRef l);
               l ← alloc (OList []); setattr self "_sfp_list" (VRef l))
              w dict H0)
    as (w1 & d1 & -> & _ & H1 & E1 & C1 & _).
  destruct (init_attribute self "_fan_list"
              (l ← alloc (OList []); _ ← setattr self "_psu_list" (VRef l);
               l ← alloc (OList []); _ ← setattr self "_thermal_list" (VRef l);
               l ← alloc (OList []); setattr self "_sfp_list" (VRef l))
              w1 d1 H1)
    as (w2 & d2 & -> & _ & H2 & E2 & C2 & K2).
  destruct (init_attribute self "_psu_list"
              (l ← alloc (OList []); _ ← setattr self "_thermal_list" (VRef l);
               l ← alloc (OList []); setattr self "_sfp_list" (VRef l))
              w2 d2 H2)
    as (w3 & d3 & -> & _ & H3 & E3 & C3 & K3).
  destruct (init_attribute self "_thermal_list"
              (l ← alloc (OList []); setattr self "_sfp_list" (VRef l))
              w3 d3 H3)
    as (w4 & d4 & -> & _ & H4 & E4 & C4 & K4).
  destruct (init_attribute self "_sfp_list" (mret ()) w4 d4 H4)
    as (w5 & d5 & _ & -> & H5 & E5 & C5 & K5).
  exists w5. split_and!; [done | congruence |].
  intros []; simpl; auto 10.
Qed.

Lemma new_collections w :
  ∃ self w', ModuleBase.new w = (Return self, w')
             ∧ stderr w' = stderr w
             ∧ ∀ k, empty_collection w' self (attr_of k).
Proof.
  unfold ModuleBase.new.
  destruct (alloc_fresh (OInstance ∅) w) as [_ Halloc].
  set (self := fresh (dom (heap w))) in *.
  destruct (init_collections self
              {| heap := <[self := OInstance ∅]> (heap w); stderr := stderr w |} ∅)
    as (w' & Hinit & Herr & Hall); [by simpl; rewrite lookup_insert_eq |].
  exists self, w'.
  by rewrite (bind_return _ _ _ _ _ Halloc), (bind_return _ _ _ _ _ Hinit).
Qed.

Lemma empty_collection_getattr w self name :
  empty_collection w self name →
  ∃ l, getattr self name w = (Return (VRef l), w)
       ∧ heap w !! l = Some (OList []).
Proof.
  intros (dict & l & Hself & Hname & Hl). exists l.
  unfold getattr. by rewrite Hself, Hname.
Qed.

(** Writing a list through a reference leaves every attribute of an
    instance where it was. *)
Lemma getattr_list_assign self name l items items' w r :
  heap w !! l = Some (OList items) →
  getattr self name w = (Return r, w) →
  let w' := (list_assign (VRef l) items' w).2 in
  getattr self name w' = (Return r, w')
  ∧ heap w' !! l = Some (OList items').
Proof.
  intros Hl Hattr. unfold list_assign. rewrite Hl. simpl.
  split; [| by rewrite lookup_insert_eq].
  unfold getattr in *. simpl.
  destruct (decide (l = self)) as [-> | Hne].
  - by rewrite Hl in Hattr.
  - rewrite lookup_insert_ne by done.
    repeat case_match; by simplify_eq.
Qed.

(** * The interface contract *)

(** C1, as the code has it.  For each of the five kinds, when [get_num]
    returns [n] and the index is below [-n] or at least [n], [get_item]
    returns None, writes exactly one string to standard error and raises
    nothing.  (An index in [-n, 0) is served from the end of the list.) *)
Theorem get_outside_returns_none k self w n index :
  get_num k self w = (Return n, w) →
  index < - n ∨ n ≤ index →
  ∃ msg, get_item k self index w = (Return VNone, reported w msg).
Proof.
  intros Hnum Hout. eexists. by apply get_item_outside.
Qed.

Lemma get_outside_returns_none_witness :
  get_num Fan 1 card_world = (Return 3, card_world)
  ∧ ∃ msg, get_item Fan 1 5 card_world = (Return VNone, reported card_world msg).
Proof.
  split; [vm_compute; reflexivity |].
  apply (get_outside_returns_none Fan 1 card_world 3 5);
    [vm_compute; reflexivity | right; lia].
Defined.

(** C1 as stated fails: on the card with three fans, [get_fan(-1)] has a
    negative index, yet it returns the last fan and writes nothing. *)
Lemma get_fan_minus_one_is_served :
  ¬ (get_num Fan 1 card_world = (Return 3, card_world) →
     -1 < 0 ∨ 3 ≤ -1 →
     ∃ msg, get_item Fan 1 (-1) card_world
            = (Return VNone, reported card_world msg)).
Proof.
  intros H. destruct H as [msg H]; [vm_compute; reflexivity | left; lia |].
  assert ((get_item Fan 1 (-1) card_world).1 = Return (VRef 10)) as E
    by (vm_compute; reflexivity).
  rewrite H in E. discriminate E.
Qed.

(** C2.  Each identity and lifecycle method of the base class raises
    NotImplementedError and leaves the world as it found it, for every
    argument [up] and [timeout]. *)
Theorem identity_methods_not_implemented self w (up : bool) (timeout : Z) :
  ModuleBase.get_base_mac self w = (Raise NotImplementedError, w)
  ∧ ModuleBase.get_system_eeprom_info self w = (Raise NotImplementedError, w)
  ∧ ModuleBase.get_name self w = (Raise NotImplementedError, w)
  ∧ ModuleBase.get_description self w = (Raise NotImplementedError, w)
  ∧ ModuleBase.get_slot self w = (Raise NotImplementedError, w)
  ∧ ModuleBase.get_type self w = (Raise NotImplementedError, w)
  ∧ ModuleBase.get_status self w = (Raise NotImplementedError, w)
  ∧ ModuleBase.reboot self w = (Raise NotImplementedError, w)
  ∧ ModuleBase.set_admin_state self up w = (Raise NotImplementedError, w)
  ∧ ModuleBase.get_change_event self timeout w = (Raise NotImplementedError, w).
Proof. by split_and!. Qed.

(** C3.  For each of the five kinds and every index [0 <= index < get_num],
    [get_item] returns the element at that position of the list that
    [get_all] returns, and leaves the world, standard error included, as it
    was. *)
Theorem get_valid_index k self w n l items index :
  get_num k self w = (Return n, w) →
  get_all k self w = (Return (VRef l), w) →
  heap w !! l = Some (OList items) →
  0 ≤ index < n →
  ∃ v, items !! Z.to_nat index = Some v
       ∧ get_item k self index w = (Return v, w).
Proof.
  intros Hnum Hall Hl Hin.
  rewrite (get_num_length _ _ _ _ _ Hall Hl) in Hnum. simplify_eq.
  destruct (list_getitem_front items index Hin) as (v & Hv & Hget).
  exists v. eauto using get_item_found.
Qed.

Lemma get_valid_index_witness :
  [VRef 8; VRef 9; VRef 10] !! Z.to_nat 1 = Some (VRef 9)
  ∧ ∃ v, [VRef 8; VRef 9; VRef 10] !! Z.to_nat 1 = Some v
         ∧ get_item Fan 1 1 card_world = (Return v, card_world).
Proof.
  split; [reflexivity |].
  apply (get_valid_index Fan 1 card_world 3 3 [VRef 8; VRef 9; VRef 10] 1);
    [vm_compute; reflexivity | vm_compute; reflexivity
    | vm_compute; reflexivity | lia].
Defined.

(** C4, as the code has it.  For each of the five kinds, when [get_num]
    returns [n] and the index is below [-n] or at least [n], the one string
    [get_item] writes to standard error is the line
    [<Kind> index {index} out of range (0-{n-1})], with the tag Component,
    Fan, PSU, THERMAL or SFP, and a line feed; with three fans, [get_fan(3)]
    writes [Fan index 3 out of range (0-2)]. *)
Theorem out_of_range_diagnostic :
  (∀ k self w n index,
     get_num k self w = (Return n, w) →
     index < - n ∨ n ≤ index →
     stderr (get_item k self index w).2
     = stderr w ++ [diagnostic k index n +:+ LF])
  ∧ (∀ self w,
       ModuleBase.get_num_fans self w = (Return 3, w) →
       stderr (ModuleBase.get_fan self 3 w).2
       = stderr w ++ ["Fan index 3 out of range (0-2)" +:+ LF]).
Proof.
  split.
  - intros k self w n index Hnum Hout.
    by rewrite (get_item_outside _ _ _ _ _ Hnum Hout).
  - intros self w Hnum.
    change (ModuleBase.get_fan self 3 w) with (get_item Fan self 3 w).
    by rewrite (get_item_outside Fan _ _ _ 3 Hnum) by lia.
Qed.

Lemma out_of_range_diagnostic_witness :
  stderr (get_item Psu 1 0 card_world).2
  = ["PSU index 0 out of range (0--1)" +:+ LF]
  ∧ stderr (ModuleBase.get_fan 1%positive 3 card_world).2
    = ["Fan index 3 out of range (0-2)" +:+ LF].
Proof.
  split.
  - apply (proj1 out_of_range_diagnostic Psu 1%positive card_world 0 0);
      [vm_compute; reflexivity | right; lia].
  - apply (proj2 out_of_range_diagnostic 1%positive card_world).
    vm_compute; reflexivity.
Defined.

(** C4 as stated fails: on the card with two transceivers, [get_sfp(-2)] has
    a negative index, and no line is written. *)
Lemma get_sfp_minus_two_is_silent :
  ¬ (get_num Sfp 1 card_world = (Return 2, card_world) →
     -2 < 0 ∨ 2 ≤ -2 →
     stderr (get_item Sfp 1 (-2) card_world).2
     = stderr card_world ++ [diagnostic Sfp (-2) 2 +:+ LF]).
Proof.
  intros H.
  assert (stderr (get_item Sfp 1 (-2) card_world).2 = []) as E
    by (vm_compute; reflexivity).
  rewrite H in E; [| vm_compute; reflexivity | left; lia].
  by destruct (stderr card_world).
Qed.

(** C5.  In the world [ModuleBase()] leaves behind, whatever the world
    before, for each of the five kinds [get_num] returns 0 and [get_all]
    returns a reference to a list without items. *)
Theorem new_module_is_empty w k :
  ∃ self w',
    ModuleBase.new w = (Return self, w')
    ∧ get_num k self w' = (Return 0, w')
    ∧ ∃ l, get_all k self w' = (Return (VRef l), w')
           ∧ heap w' !! l = Some (OList []).
Proof.
  destruct (new_collections w) as (self & w' & Hnew & _ & Hall).
  destruct (empty_collection_getattr _ _ _ (Hall k)) as (l & Hattr & Hl).
  rewrite <- get_all_eq in Hattr.
  exists self, w'. split_and!; [done | | by exists l].
  apply (get_num_length _ _ _ _ _ Hattr Hl).
Qed.

(** C6.  The class attributes that name the module types and the module
    states hold exactly the strings of the interface. *)
Theorem enumeration_constants :
  ModuleBase_class !! "MODULE_TYPE_SUPERVISOR" = Some (VStr "SUPERVISOR")
  ∧ ModuleBase_class !! "MODULE_TYPE_LINE" = Some (VStr "LINE-CARD")
  ∧ ModuleBase_class !! "MODULE_TYPE_FABRIC" = Some (VStr "FABRIC-CARD")
  ∧ ModuleBase_class !! "MODULE_STATUS_EMPTY" = Some (VStr "Empty")
  ∧ ModuleBase_class !! "MODULE_STATUS_OFFLINE" = Some (VStr "Offline")
  ∧ ModuleBase_class !! "MODULE_STATUS_PRESENT" = Some (VStr "Present")
  ∧ ModuleBase_class !! "MODULE_STATUS_FAULT" = Some (VStr "Fault")
  ∧ ModuleBase_class !! "MODULE_STATUS_ONLINE" = Some (VStr "Online")
  ∧ MODULE_TYPE_SUPERVISOR = "SUPERVISOR"
  ∧ MODULE_TYPE_LINE = "LINE-CARD"
  ∧ MODULE_TYPE_FABRIC = "FABRIC-CARD"
  ∧ MODULE_STATUS_EMPTY = "Empty"
  ∧ MODULE_STATUS_OFFLINE = "Offline"
  ∧ MODULE_STATUS_PRESENT = "Present"
  ∧ MODULE_STATUS_FAULT = "Fault"
  ∧ MODULE_STATUS_ONLINE = "Online".
Proof. split_and!; reflexivity. Qed.

(** C7.  For each of the five kinds and every world, [get_all] returns the
    value of the instance's attribute itself; when that is a list, a later
    in-place change of the list shows through the reference returned before:
    its length and its items are the new ones, and [get_all] still returns
    the same reference. *)
Theorem get_all_is_the_backing_list k self w :
  get_all k self w = getattr self (attr_of k) w
  ∧ ∀ l items items',
      get_all k self w = (Return (VRef l), w) →
      heap w !! l = Some (OList items) →
      let w' := (list_assign (VRef l) items' w).2 in
      get_all k self w' = (Return (VRef l), w')
      ∧ heap w' !! l = Some (OList items')
      ∧ len (VRef l) w' = (Return (Z.of_nat (length items')), w')
      ∧ ∀ index, subscript (VRef l) index w' = (list_getitem items' index, w').
Proof.
  split; [by rewrite get_all_eq |].
  intros l items items'. rewrite get_all_eq. intros Hattr Hl.
  destruct (getattr_list_assign _ _ _ _ items' _ _ Hl Hattr) as [Hattr' Hl'].
  intros w'.
  split_and!; [done | done | by apply len_list |].
  intros index. by apply subscript_list.
Qed.

Lemma get_all_is_the_backing_list_witness :
  let w' := (list_assign (VRef 3) [VRef 9] card_world).2 in
  get_all Fan 1 card_world = (Return (VRef 3), card_world)
  ∧ get_all Fan 1 w' = (Return (VRef 3), w')
  ∧ heap w' !! 3%positive = Some (OList [VRef 9]).
Proof.
  intros w'.
  destruct (proj2 (get_all_is_the_backing_list Fan 1 card_world)
              3%positive [VRef 8; VRef 9; VRef 10] [VRef 9])
    as (Hall & Hl & _); [vm_compute; reflexivity | vm_compute; reflexivity |].
  split_and!; [vm_compute; reflexivity | exact Hall | exact Hl].
Defined.

(** C8.  For each of the five kinds, when the collection has [n] items and
    [1 <= j <= n], [get_item] at index [-j] returns the item at position
    [n - j] and leaves the world, standard error included, as it was. *)
Theorem get_negative_index k self w n l items j :
  get_num k self w = (Return n, w) →
  get_all k self w = (Return (VRef l), w) →
  heap w !! l = Some (OList items) →
  1 ≤ j ≤ n →
  ∃ v, items !! Z.to_nat (n - j) = Some v
       ∧ get_item k self (- j) w = (Return v, w).
Proof.
  intros Hnum Hall Hl Hin.
  rewrite (get_num_length _ _ _ _ _ Hall Hl) in Hnum. simplify_eq.
  destruct (list_getitem_back items j Hin) as (v & Hv & Hget).
  exists v. eauto using get_item_found.
Qed.

Lemma get_negative_index_witness :
  ∃ v, [VRef 8; VRef 9; VRef 10] !! Z.to_nat (3 - 1) = Some v
       ∧ get_item Fan 1 (- 1) card_world = (Return v, card_world).
Proof.
  apply (get_negative_index Fan 1 card_world 3 3 [VRef 8; VRef 9; VRef 10] 1);
    [vm_compute; reflexivity | vm_compute; reflexivity
    | vm_compute; reflexivity | lia].
Defined.

(** C9.  For each of the five kinds, [get_num] and [get_all] leave the whole
    world as it was, and [get_item], at any index, leaves the store as it
    was: no collection and no attribute changes, whether or not a diagnostic
    is written. *)
Theorem accessors_preserve_store k self index w :
  (get_num k self w).2 = w
  ∧ (get_all k self w).2 = w
  ∧ heap (get_item k self index w).2 = heap w.
Proof.
  split_and!.
  - rewrite get_num_eq. unfold mbind, py_bind, bind.
    destruct (getattr self (attr_of k) w) as [[v | e] w1] eqn:Hattr;
      apply getattr_pure in Hattr as ->; [| done].
    destruct (len v w) as [r w1] eqn:Hlen.
    by apply len_pure in Hlen as ->.
  - rewrite get_all_eq.
    destruct (getattr self (attr_of k) w) as [r w1] eqn:Hattr.
    by apply getattr_pure in Hattr as ->.
  - rewrite get_item_eq. apply accessor_heap.
Qed.

(** C10.  For each of the five kinds and in every world, [get_num] is
    [len] of what [get_all] returns; when that is a list, [get_num] returns
    the number of its items. *)
Theorem get_num_is_length_of_get_all k self w :
  get_num k self w = (get_all k self ≫= len) w
  ∧ ∀ l items,
      get_all k self w = (Return (VRef l), w) →
      heap w !! l = Some (OList items) →
      get_num k self w = (Return (Z.of_nat (length items)), w).
Proof.
  split; [by rewrite get_num_eq, get_all_eq |].
  intros l items. apply get_num_length.
Qed.

Lemma get_num_is_length_of_get_all_witness :
  get_num Sfp 1 card_world = (Return 2, card_world).
Proof.
  apply (proj2 (get_num_is_length_of_get_all Sfp 1 card_world)
           6%positive [VRef 11; VRef 12]);
    vm_compute; reflexivity.
Defined.

(** * Beyond the contract: construction, sharing and the edges *)

(** ** What [__init__] does to the store *)

(** One line [self.name = []], with the store it leaves behind written out. *)
Lemma init_attribute_store {B} self name (rest : py B) w dict :
  heap w !! self = Some (OInstance dict) →
  ∃ l w',
    heap w !! l = None
    ∧ heap w' = <[self := OInstance (<[name := VRef l]> dict)]>
                  (<[l := OList []]> (heap w))
    ∧ stderr w' = stderr w
    ∧ (l ← alloc (OList []); _ ← setattr self name (VRef l); rest) w = rest w'
    ∧ (l ← alloc (OList []); setattr self name (VRef l)) w = (Return (), w').
Proof.
  intros Hself.
  destruct (alloc_fresh (OList []) w) as [Hfresh Halloc].
  set (l := fresh (dom (heap w))) in *.
  assert (l ≠ self) as Hne by (intros ->; congruence).
  exists l, {| heap := <[self := OInstance (<[name := VRef l]> dict)]>
                         (<[l := OList []]> (heap w));
               stderr := stderr w |}.
  unfold mbind, py_bind, bind. rewrite Halloc. unfold setattr. simpl.
  by rewrite lookup_insert_ne, Hself.
Qed.

(** Look a key up below the insertions that precede it. *)
Ltac through_inserts :=
  repeat first [ rewrite lookup_insert_eq
               | rewrite lookup_insert_ne by done ];
  try done.

(** The five lists of [__init__] are new, pairwise different objects; the
    instance refers to them; every other object is left alone. *)
Lemma init_store self w dict :
  heap w !! self = Some (OInstance dict) →
  ∃ (f : kind → loc) dict' w',
    ModuleBase.__init__ self w = (Return (), w')
    ∧ stderr w' = stderr w
    ∧ heap w' !! self = Some (OInstance dict')
    ∧ (∀ k, dict' !! attr_of k = Some (VRef (f k)))
    ∧ (∀ k, heap w !! f k = None)
    ∧ (∀ k, heap w' !! f k = Some (OList []))
    ∧ (∀ k k', f k = f k' → k = k')
    ∧ (∀ l o, heap w !! l = Some o → l ≠ self → heap w' !! l = Some o).
Proof.
  intros H0. unfold ModuleBase.__init__.
  destruct (init_attribute_store self "_component_list"
              (l ← alloc (OList []); _ ← setattr self "_fan_list" (VRef l);
               l ← alloc (OList []); _ ← setattr self "_psu_list" (VRef l);
               l ← alloc (OList []); _ ← setattr self "_thermal_list" (VRef l);
               l ← alloc (OList []); setattr self "_sfp_list" (VRef l))
              w dict H0)
    as (l1 & w1 & F1 & E1 & S1 & -> & _).
  assert (heap w1 !! self = Some (OInstance (<["_component_list" := VRef l1]> dict)))
    as H1 by (rewrite E1; apply lookup_insert_eq).
  destruct (init_attribute_store self "_fan_list"
              (l ← alloc (OList []); _ ← setattr self "_psu_list" (VRef l);
               l ← alloc (OList []); _ ← setattr self "_thermal_list" (VRef l);
               l ← alloc (OList []); setattr self "_sfp_list" (VRef l))
              w1 _ H1)
    as (l2 & w2 & F2 & E2 & S2 & -> & _).
  assert (heap w2 !! self = Some (OInstance
            (<["_fan_list" := VRef l2]> (<["_component_list" := VRef l1]> dict))))
    as H2 by (rewrite E2; apply lookup_insert_eq).
  destruct (init_attribute_store self "_psu_list"
              (l ← alloc (OList []); _ ← setattr self "_thermal_list" (VRef l);
               l ← alloc (OList []); setattr self "_sfp_list" (VRef l))
              w2 _ H2)
    as (l3 & w3 & F3 & E3 & S3 & -> & _).
  assert (heap w3 !! self = Some (OInstance
            (<["_psu_list" := VRef l3]> (<["_fan_list" := VRef l2]>
               (<["_component_list" := VRef l1]> dict)))))
    as H3 by (rewrite E3; apply lookup_insert_eq).
  destruct (init_attribute_store self "_thermal_list"
              (l ← alloc (OList []); setattr self "_sfp_list" (VRef l))
              w3 _ H3)
    as (l4 & w4 & F4 & E4 & S4 & -> & _).
  assert (heap w4 !! self = Some (OInstance
            (<["_thermal_list" := VRef l4]> (<["_psu_list" := VRef l3]>
               (<["_fan_list" := VRef l2]> (<["_component_list" := VRef l1]> dict))))))
    as H4 by (rewrite E4; apply lookup_insert_eq).
  destruct (init_attribute_store self "_sfp_list" (mret ()) w4 _ H4)
    as (l5 & w5 & F5 & E5 & S5 & _ & ->).
  rewrite E4 in F5. rewrite E3 in F4, F5. rewrite E2 in F3, F4, F5.
  rewrite E1 in F2, F3, F4, F5.
  repeat match goal with
         | H : <[_ := _]> _ !! _ = None |- _ =>
             apply lookup_insert_None in H as [H ?]
         end.
  assert (self ≠ l1) by (intros ->; congruence).
  exists (λ k, match k with
               | Component => l1 | Fan => l2 | Psu => l3
               | Thermal => l4 | Sfp => l5
               end).
  eexists. exists w5.
  rewrite E5, E4, E3, E2, E1.
  split_and!.
  - done.
  - congruence.
  - apply lookup_insert_eq.
  - intros []; simpl; through_inserts.
  - by intros [].
  - intros []; simpl; through_inserts.
  - intros [] []; intros; by simplify_eq.
  - intros l o Hl Hne.
    assert (l ≠ l1 ∧ l ≠ l2 ∧ l ≠ l3 ∧ l ≠ l4 ∧ l ≠ l5) as (? & ? & ? & ? & ?)
      by (split_and!; intros ->; congruence).
    through_inserts.
Qed.

(** ** Reading depends on the store only *)

Lemma getattr_same_object obj name w w' r :
  heap w' !! obj = heap w !! obj →
  getattr obj name w = (Return r, w) →
  getattr obj name w' = (Return r, w').
Proof.
  unfold getattr. intros ->. intros H.
  repeat case_match; by simplify_eq.
Qed.

Lemma getattr_is_instance obj name w r w' :
  getattr obj name w = (Return r, w') →
  ∃ dict, heap w !! obj = Some (OInstance dict).
Proof.
  unfold getattr. intros H.
  destruct (heap w !! obj) as [[| dict |] |]; simplify_eq. by exists dict.
Qed.

Lemma class_default k : ModuleBase_class !! attr_of k = Some VNone.
Proof. by destruct k. Qed.

(** *** Every index inside [-n, n) names one position *)

Lemma list_getitem_inside items index :
  let n := Z.of_nat (length items) in
  - n ≤ index < n →
  ∃ v, items !! Z.to_nat (index `mod` n) = Some v
       ∧ list_getitem items index = Return v.
Proof.
  intros n Hin.
  destruct (Z.lt_ge_cases index 0) as [Hneg | Hpos].
  - destruct (list_getitem_back items (- index)) as (v & Hv & Hget); [lia |].
    rewrite Z.opp_involutive in Hget.
    exists v. split; [| done].
    replace (index `mod` n) with (n - - index); [done |].
    apply (Z.mod_unique_pos _ _ (-1)); lia.
  - destruct (list_getitem_front items index) as (v & Hv & Hget); [lia |].
    exists v. split; [| done].
    by rewrite Z.mod_small by lia.
Qed.

Lemma app_singleton_neq {A} (xs : list A) (x : A) : xs ++ [x] ≠ xs.
Proof.
  intros H. apply (f_equal length) in H.
  rewrite length_app in H. simpl in H. lia.
Qed.

(** ** Construction *)

(** X1.  [ModuleBase()] gives each of the five kinds a list object of its
    own: the five references are pairwise different, none of them (nor the
    instance) was in use before, and each list is empty. *)
Theorem new_collections_are_separate w :
  ∃ self w' (f : kind → loc),
    ModuleBase.new w = (Return self, w')
    ∧ heap w !! self = None
    ∧ (∀ k, get_all k self w' = (Return (VRef (f k)), w')
            ∧ heap w' !! f k = Some (OList [])
            ∧ heap w !! f k = None
            ∧ f k ≠ self)
    ∧ (∀ k k', f k = f k' → k = k').
Proof.
  unfold ModuleBase.new.
  destruct (alloc_fresh (OInstance ∅) w) as [Hfresh Halloc].
  set (self := fresh (dom (heap w))) in *.
  set (w0 := {| heap := <[self := OInstance ∅]> (heap w); stderr := stderr w |}).
  destruct (init_store self w0 ∅)
    as (f & dict' & w' & Hinit & _ & Hself & Hdict & Hnew & Hlist & Hinj & _);
    [by simpl; rewrite lookup_insert_eq |].
  exists self, w', f.
  rewrite (bind_return _ _ _ _ _ Halloc), (bind_return _ _ _ _ _ Hinit).
  split_and!; [done | done | | done].
  intros k. specialize (Hnew k). simpl in Hnew.
  apply lookup_insert_None in Hnew as [Hnew Hne].
  split_and!; [| done | done | done].
  rewrite get_all_eq. unfold getattr. by rewrite Hself, Hdict.
Qed.

(** X2.  Constructing one more module leaves the modules that exist alone:
    a collection of another instance is still the same list with the same
    items, its count is the same, and nothing is written to standard
    error. *)
Theorem new_leaves_other_modules k other l items w :
  get_all k other w = (Return (VRef l), w) →
  heap w !! l = Some (OList items) →
  ∃ self w',
    ModuleBase.new w = (Return self, w')
    ∧ self ≠ other
    ∧ stderr w' = stderr w
    ∧ get_all k other w' = (Return (VRef l), w')
    ∧ heap w' !! l = Some (OList items)
    ∧ get_num k other w' = (Return (Z.of_nat (length items)), w').
Proof.
  intros Hall Hl.
  rewrite get_all_eq in Hall.
  destruct (getattr_is_instance _ _ _ _ _ Hall) as [d Hother].
  unfold ModuleBase.new.
  destruct (alloc_fresh (OInstance ∅) w) as [Hfresh Halloc].
  set (self := fresh (dom (heap w))) in *.
  set (w0 := {| heap := <[self := OInstance ∅]> (heap w); stderr := stderr w |}).
  destruct (init_store self w0 ∅)
    as (f & dict' & w' & Hinit & Herr & _ & _ & _ & _ & _ & Hframe);
    [by simpl; rewrite lookup_insert_eq |].
  assert (self ≠ other) as Hne by (intros E; rewrite E in Hfresh; congruence).
  assert (self ≠ l) as Hne' by (intros E; rewrite E in Hfresh; congruence).
  assert (heap w' !! other = heap w !! other) as Hother'.
  { rewrite Hother. apply Hframe; [| done].
    by simpl; rewrite lookup_insert_ne. }
  assert (heap w' !! l = Some (OList items)) as Hl'.
  { apply Hframe; [| done]. by simpl; rewrite lookup_insert_ne. }
  pose proof (getattr_same_object _ _ _ _ _ Hother' Hall) as Hall'.
  rewrite <- get_all_eq in Hall'.
  exists self, w'.
  rewrite (bind_return _ _ _ _ _ Halloc), (bind_return _ _ _ _ _ Hinit).
  split_and!; try done.
  by apply (get_num_length _ _ _ l).
Qed.

Lemma new_leaves_other_modules_witness :
  ∃ self w',
    ModuleBase.new card_world = (Return self, w')
    ∧ self ≠ 1%positive
    ∧ stderr w' = stderr card_world
    ∧ get_all Fan 1 w' = (Return (VRef 3), w')
    ∧ heap w' !! 3%positive = Some (OList [VRef 8; VRef 9; VRef 10])
    ∧ get_num Fan 1 w' = (Return 3, w').
Proof.
  apply (new_leaves_other_modules Fan 1%positive 3%positive
           [VRef 8; VRef 9; VRef 10] card_world);
    vm_compute; reflexivity.
Defined.

(** X3.  [__init__] binds new lists and does not clear the old ones: run on
    an instance that already holds devices, it leaves every collection
    empty, while the list that [get_all] returned before keeps its items and
    is no longer the collection of the module. *)
Theorem init_again_discards k self l items w :
  get_all k self w = (Return (VRef l), w) →
  heap w !! l = Some (OList items) →
  ∃ w' l',
    ModuleBase.__init__ self w = (Return (), w')
    ∧ get_all k self w' = (Return (VRef l'), w')
    ∧ l' ≠ l
    ∧ get_num k self w' = (Return 0, w')
    ∧ heap w' !! l = Some (OList items)
    ∧ stderr w' = stderr w.
Proof.
  intros Hall Hl.
  rewrite get_all_eq in Hall.
  destruct (getattr_is_instance _ _ _ _ _ Hall) as [d Hself].
  destruct (init_store self w d Hself)
    as (f & dict' & w' & Hinit & Herr & Hself' & Hdict & Hnew & Hlist & _ & Hframe).
  assert (get_all k self w' = (Return (VRef (f k)), w')) as Hall'.
  { rewrite get_all_eq. unfold getattr. by rewrite Hself', Hdict. }
  exists w', (f k). split_and!; try done.
  - intros E. specialize (Hnew k). rewrite E in Hnew. congruence.
  - apply (get_num_length _ _ _ _ _ Hall' (Hlist k)).
  - apply Hframe; [done |]. intros ->. congruence.
Qed.

Lemma init_again_discards_witness :
  ∃ w' l',
    ModuleBase.__init__ 1%positive card_world = (Return (), w')
    ∧ get_all Fan 1 w' = (Return (VRef l'), w')
    ∧ l' ≠ 3%positive
    ∧ get_num Fan 1 w' = (Return 0, w')
    ∧ heap w' !! 3%positive = Some (OList [VRef 8; VRef 9; VRef 10])
    ∧ stderr w' = stderr card_world.
Proof.
  apply (init_again_discards Fan 1%positive 3%positive
           [VRef 8; VRef 9; VRef 10] card_world);
    vm_compute; reflexivity.
Defined.

(** X4.  The class gives the five attributes the default None.  On an
    instance whose dictionary lacks the attribute of a kind ([__init__] has
    not run), [get_all] returns None, and [get_num] and [get_item] raise
    TypeError: the handler of [get_item] catches IndexError only, and
    nothing is written. *)
Theorem uninitialised_instance_raises k self dict w index :
  heap w !! self = Some (OInstance dict) →
  dict !! attr_of k = None →
  get_all k self w = (Return VNone, w)
  ∧ get_num k self w = (Raise TypeError, w)
  ∧ get_item k self index w = (Raise TypeError, w).
Proof.
  intros Hself Hdict.
  assert (getattr self (attr_of k) w = (Return VNone, w)) as Hattr.
  { unfold getattr. by rewrite Hself, Hdict, class_default. }
  rewrite get_all_eq, get_num_eq, get_item_eq.
  split_and!; [done | by rewrite (bind_return _ _ _ _ _ Hattr) |].
  unfold accessor.
  apply (try_except_passed _ _ _ TypeError w w); [| done].
  by rewrite (bind_return _ _ _ _ _ Hattr).
Qed.

Lemma uninitialised_instance_raises_witness :
  let w := (alloc (OInstance ∅) empty_world).2 in
  get_all Psu 1 w = (Return VNone, w)
  ∧ get_num Psu 1 w = (Raise TypeError, w)
  ∧ get_item Psu 1 0 w = (Raise TypeError, w).
Proof.
  apply (uninitialised_instance_raises Psu 1%positive ∅
           (alloc (OInstance ∅) empty_world).2 0);
    vm_compute; reflexivity.
Defined.

(** ** The accessors on a list of [n] items *)

Lemma get_item_inside k self w l items index :
  get_all k self w = (Return (VRef l), w) →
  heap w !! l = Some (OList items) →
  - Z.of_nat (length items) ≤ index < Z.of_nat (length items) →
  ∃ v, items !! Z.to_nat (index `mod` Z.of_nat (length items)) = Some v
       ∧ get_item k self index w = (Return v, w).
Proof.
  intros Hall Hl Hin.
  destruct (list_getitem_inside items index Hin) as (v & Hv & Hget).
  exists v. eauto using get_item_found.
Qed.

(** X5.  When the collection of a kind is a list, [get_item] raises nothing
    at any integer index: it always returns. *)
Theorem get_item_never_raises k self w l items index :
  get_all k self w = (Return (VRef l), w) →
  heap w !! l = Some (OList items) →
  ∃ v w', get_item k self index w = (Return v, w').
Proof.
  intros Hall Hl.
  destruct (decide (- Z.of_nat (length items) ≤ index < Z.of_nat (length items)))
    as [Hin | Hout].
  - destruct (get_item_inside _ _ _ _ _ _ Hall Hl Hin) as (v & _ & Hget).
    by exists v, w.
  - eexists _, _. apply get_item_outside; [by apply (get_num_length _ _ _ l) |].
    lia.
Qed.

Lemma get_item_never_raises_witness :
  ∃ v w', get_item Fan 1 (-7) card_world = (Return v, w').
Proof.
  apply (get_item_never_raises Fan 1 card_world 3%positive
           [VRef 8; VRef 9; VRef 10] (-7));
    vm_compute; reflexivity.
Defined.

(** X6.  On a list of [n] items, [get_item] writes to standard error exactly
    when the index is outside [-n, n): standard error is unchanged if and
    only if [-n <= index < n].  (The returned value does not tell: a list
    may hold None.) *)
Theorem get_item_silent_iff_inside k self w l items index :
  get_all k self w = (Return (VRef l), w) →
  heap w !! l = Some (OList items) →
  stderr (get_item k self index w).2 = stderr w
  ↔ - Z.of_nat (length items) ≤ index < Z.of_nat (length items).
Proof.
  intros Hall Hl. split.
  - intros Hsilent.
    destruct (decide (- Z.of_nat (length items) ≤ index < Z.of_nat (length items)))
      as [Hin | Hout]; [done |].
    rewrite (get_item_outside k self w (Z.of_nat (length items)) index)
      in Hsilent; [| by apply (get_num_length _ _ _ l) | lia].
    by apply app_singleton_neq in Hsilent.
  - intros Hin.
    destruct (get_item_inside _ _ _ _ _ _ Hall Hl Hin) as (v & _ & Hget).
    by rewrite Hget.
Qed.

Lemma get_item_silent_iff_inside_witness :
  stderr (get_item Fan 1 (-3) card_world).2 = stderr card_world
  ↔ - Z.of_nat (length [VRef 8; VRef 9; VRef 10]) ≤ -3
    < Z.of_nat (length [VRef 8; VRef 9; VRef 10]).
Proof.
  apply (get_item_silent_iff_inside Fan 1 card_world 3%positive
           [VRef 8; VRef 9; VRef 10] (-3));
    vm_compute; reflexivity.
Defined.

(** X7.  On a list of [n] items and for [0 <= i < n], the indices [i] and
    [i - n] name the same item: [get_item] gives the same result for
    both. *)
Theorem get_item_wraps k self w l items i :
  get_all k self w = (Return (VRef l), w) →
  heap w !! l = Some (OList items) →
  0 ≤ i < Z.of_nat (length items) →
  get_item k self (i - Z.of_nat (length items)) w = get_item k self i w.
Proof.
  intros Hall Hl Hin.
  destruct (get_item_inside k self w l items i Hall Hl) as (v & Hv & ->);
    [lia |].
  destruct (get_item_inside k self w l items (i - Z.of_nat (length items))
              Hall Hl) as (v' & Hv' & ->); [lia |].
  rewrite Z.mod_small in Hv by lia.
  replace ((i - Z.of_nat (length items)) `mod` Z.of_nat (length items))
    with i in Hv'; [congruence |].
  apply (Z.mod_unique_pos _ _ (-1)); lia.
Qed.

Lemma get_item_wraps_witness :
  get_item Sfp 1 (1 - Z.of_nat (length [VRef 11; VRef 12])) card_world
  = get_item Sfp 1 1 card_world.
Proof.
  apply (get_item_wraps Sfp 1 card_world 6%positive [VRef 11; VRef 12] 1);
    [vm_compute; reflexivity | vm_compute; reflexivity | simpl; lia].
Defined.

(** X8.  On a collection without items every index is out of range, 0 and
    -1 included: [get_item] returns None and the line it writes names the
    range [(0--1)]. *)
Theorem get_item_on_empty k self w index :
  get_num k self w = (Return 0, w) →
  get_item k self index w
  = (Return VNone, reported w (diagnostic k index 0 +:+ LF))
  ∧ diagnostic k index 0
    = tag_of k +:+ " index " +:+ str index +:+ " out of range (0--1)".
Proof.
  intros Hnum. split; [| reflexivity].
  apply get_item_outside; [done | lia].
Qed.

Lemma get_item_on_empty_witness :
  get_item Thermal 1 (-1) card_world
  = (Return VNone, reported card_world (diagnostic Thermal (-1) 0 +:+ LF))
  ∧ diagnostic Thermal (-1) 0
    = tag_of Thermal +:+ " index " +:+ str (-1) +:+ " out of range (0--1)".
Proof.
  apply (get_item_on_empty Thermal 1 card_world (-1)).
  vm_compute; reflexivity.
Defined.

(** ** Registration by the owner *)

Lemma list_append_assign l items x w :
  heap w !! l = Some (OList items) →
  list_append (VRef l) x w = list_assign (VRef l) (items ++ [x]) w.
Proof. intros Hl. unfold list_append. by rewrite Hl. Qed.

(** X9.  After the owner appends a device to the list of a kind that held
    [n] items, [get_num] is [n + 1], the device is what [get_item] returns
    at index [n] and at index [-1], and every earlier index returns the item
    it returned before. *)
Theorem append_then_get k self l items x w :
  get_all k self w = (Return (VRef l), w) →
  heap w !! l = Some (OList items) →
  let w' := (list_append (VRef l) x w).2 in
  let n := Z.of_nat (length items) in
  get_num k self w' = (Return (n + 1), w')
  ∧ get_item k self n w' = (Return x, w')
  ∧ get_item k self (- 1) w' = (Return x, w')
  ∧ ∀ i v, items !! i = Some v →
           get_item k self (Z.of_nat i) w' = (Return v, w').
Proof.
  intros Hall Hl. rewrite (list_append_assign _ _ _ _ Hl).
  rewrite get_all_eq in Hall.
  destruct (getattr_list_assign _ _ _ _ (items ++ [x]) _ _ Hl Hall)
    as [Hall' Hl'].
  rewrite <- get_all_eq in Hall'.
  set (w' := (list_assign (VRef l) (items ++ [x]) w).2) in *.
  assert (length (items ++ [x]) = S (length items)) as Hlen
    by (rewrite length_app; simpl; lia).
  assert ((items ++ [x]) !! length items = Some x) as Hlast
    by apply list_lookup_middle, eq_refl.
  simpl. split_and!.
  - rewrite (get_num_length _ _ _ _ _ Hall' Hl'), Hlen. do 2 f_equal. lia.
  - destruct (list_getitem_front (items ++ [x]) (Z.of_nat (length items)))
      as (v & Hv & Hget); [lia |].
    rewrite Nat2Z.id, Hlast in Hv. simplify_eq.
    eauto using get_item_found.
  - destruct (list_getitem_back (items ++ [x]) 1) as (v & Hv & Hget); [lia |].
    replace (Z.to_nat (Z.of_nat (length (items ++ [x])) - 1))
      with (length items) in Hv by lia.
    rewrite Hlast in Hv. simplify_eq.
    eauto using get_item_found.
  - intros i v Hi.
    pose proof (lookup_lt_Some _ _ _ Hi) as Hlt.
    destruct (list_getitem_front (items ++ [x]) (Z.of_nat i))
      as (v' & Hv' & Hget); [lia |].
    rewrite Nat2Z.id, (lookup_app_l_Some _ _ _ _ Hi) in Hv'. simplify_eq.
    eauto using get_item_found.
Qed.

Lemma append_then_get_witness :
  let w' := (list_append (VRef 3) (VRef 7) card_world).2 in
  get_num Fan 1 w' = (Return (3 + 1), w')
  ∧ get_item Fan 1 3 w' = (Return (VRef 7), w')
  ∧ get_item Fan 1 (- 1) w' = (Return (VRef 7), w')
  ∧ ∀ i v, [VRef 8; VRef 9; VRef 10] !! i = Some v →
           get_item Fan 1 (Z.of_nat i) w' = (Return v, w').
Proof.
  apply (append_then_get Fan 1%positive 3%positive
           [VRef 8; VRef 9; VRef 10] (VRef 7) card_world);
    vm_compute; reflexivity.
Defined.

(** X10.  The collections do not interfere.  When two kinds hold different
    list objects, as [__init__] makes them, an in-place change of the list
    of one leaves the other as it was: same list, same items, same count,
    and [get_item] returns the same value at every index. *)
Theorem other_kinds_unaffected k k' self l l' items items' changed w :
  get_all k self w = (Return (VRef l), w) →
  heap w !! l = Some (OList items) →
  get_all k' self w = (Return (VRef l'), w) →
  heap w !! l' = Some (OList items') →
  l ≠ l' →
  let w' := (list_assign (VRef l) changed w).2 in
  get_all k' self w' = (Return (VRef l'), w')
  ∧ heap w' !! l' = Some (OList items')
  ∧ get_num k' self w' = (Return (Z.of_nat (length items')), w')
  ∧ ∀ index, (get_item k' self index w').1 = (get_item k' self index w).1.
Proof.
  intros Hall Hl Hall0 Hl0 Hne. rewrite get_all_eq in Hall0.
  destruct (getattr_list_assign _ _ _ _ changed _ _ Hl Hall0) as [Hall' _].
  rewrite <- get_all_eq in Hall', Hall0.
  assert (heap (list_assign (VRef l) changed w).2 !! l' = Some (OList items'))
    as Hl'.
  { unfold list_assign. rewrite Hl. simpl. by rewrite lookup_insert_ne. }
  cbv zeta. split_and!; [done | done | by apply (get_num_length _ _ _ l') |].
  intros index.
  destruct (decide (- Z.of_nat (length items') ≤ index
                    < Z.of_nat (length items'))) as [Hin | Hout].
  - destruct (get_item_inside _ _ _ _ _ _ Hall' Hl' Hin) as (v & Hv & ->).
    destruct (get_item_inside _ _ _ _ _ _ Hall0 Hl0 Hin) as (v0 & Hv0 & ->).
    simpl. congruence.
  - rewrite !(get_item_outside k' self _ (Z.of_nat (length items')) index);
      [done | by apply (get_num_length _ _ _ l') | lia
      | by apply (get_num_length _ _ _ l') | lia].
Qed.

Lemma other_kinds_unaffected_witness :
  let w' := (list_assign (VRef 3) [] card_world).2 in
  get_all Sfp 1 w' = (Return (VRef 6), w')
  ∧ heap w' !! 6%positive = Some (OList [VRef 11; VRef 12])
  ∧ get_num Sfp 1 w' = (Return (Z.of_nat (length [VRef 11; VRef 12])), w')
  ∧ ∀ index, (get_item Sfp 1 index w').1 = (get_item Sfp 1 index card_world).1.
Proof.
  apply (other_kinds_unaffected Fan Sfp 1%positive 3%positive 6%positive
           [VRef 8; VRef 9; VRef 10] [VRef 11; VRef 12] [] card_world);
    [vm_compute; reflexivity | vm_compute; reflexivity
    | vm_compute; reflexivity | vm_compute; reflexivity | lia].
Defined.

(** ** Several calls *)

Lemma get_num_reported k self w n s :
  get_num k self w = (Return n, w) →
  get_num k self (reported w s) = (Return n, reported w s).
Proof.
  intros (v & Hattr & Hlen & _)%get_num_inv.
  rewrite get_num_eq.
  rewrite (bind_return _ _ _ v (reported w s));
    [| by apply (getattr_same_object _ _ w)].
  unfold len in *. simpl.
  repeat case_match; by simplify_eq.
Qed.

(** X11.  Two failed lookups in a row both return None, and their two lines
    are on standard error in the order of the calls, after what was there
    before. *)
Theorem failures_are_logged_in_order k k' self w n n' i j :
  get_num k self w = (Return n, w) →
  get_num k' self w = (Return n', w) →
  i < - n ∨ n ≤ i →
  j < - n' ∨ n' ≤ j →
  (_ ← get_item k self i; get_item k' self j) w
  = (Return VNone,
     {| heap := heap w;
        stderr := stderr w ++ [diagnostic k i n +:+ LF;
                               diagnostic k' j n' +:+ LF] |}).
Proof.
  intros Hnum Hnum' Hi Hj.
  rewrite (bind_return _ _ _ _ _ (get_item_outside _ _ _ _ _ Hnum Hi)).
  rewrite (get_item_outside k' self _ n' j);
    [| by apply get_num_reported | done].
  unfold reported. simpl. by rewrite <- app_assoc.
Qed.

Lemma failures_are_logged_in_order_witness :
  (_ ← get_item Fan 1 3; get_item Sfp 1 (-3)) card_world
  = (Return VNone,
     {| heap := heap card_world;
        stderr := stderr card_world ++ [diagnostic Fan 3 3 +:+ LF;
                                        diagnostic Sfp (-3) 2 +:+ LF] |}).
Proof.
  apply (failures_are_logged_in_order Fan Sfp 1 card_world 3 2 3 (-3));
    [vm_compute; reflexivity | vm_compute; reflexivity | right; lia | left; lia].
Defined.

(** ** The enumerations *)

(** X12.  No two module types share a string, and no two module states
    do: a value of [get_type] or [get_status] names one constant. *)
Theorem enumerations_are_distinct :
  NoDup [MODULE_TYPE_SUPERVISOR; MODULE_TYPE_LINE; MODULE_TYPE_FABRIC]
  ∧ NoDup [MODULE_STATUS_EMPTY; MODULE_STATUS_OFFLINE; MODULE_STATUS_PRESENT;
           MODULE_STATUS_FAULT; MODULE_STATUS_ONLINE].
Proof. split; compute_done. Qed.
